(** * Certificate Monkey infrastructure: the Pulumi program as a resource-graph builder

    A shallow embedding of [src/infrastructure/__main__.py].  The program is
    straight-line module code: it reads two configuration values, declares a
    KMS key, a KMS alias, a DynamoDB table and an IAM policy, and exports
    seven stack outputs.

    - Stack configuration and Python dicts are [gmap string _].
    - The Pulumi engine is a small state-and-error monad over the stack
      (declared resources in declaration order, exported outputs).
    - Values only the cloud provider knows (ARNs, the key identifier, the
      active region, the rendered policy JSON) come from a [Provider]
      record; an input property read back from a resource is the value
      that was passed in. *)

From Stdlib Require Import ZArith.
From stdpp Require Import gmap strings list fin_maps.

(** ** Resource descriptions (the [pulumi_aws] argument and resource classes) *)

Module kms.

(** [aws.kms.Key]: [key_id] and [arn] are assigned by the provider. *)
Record Key := {
  key_resource_name : string;
  description : string;
  deletion_window_in_days : Z;
  tags : gmap string string;
  key_id : string;
  arn : string
}.

(** [aws.kms.Alias] *)
Record Alias := {
  alias_resource_name : string;
  name : string;
  target_key_id : string
}.

End kms.

Module dynamodb.

Record TableAttributeArgs := {
  attr_name : string;
  attr_type : string
}.

Record TableGlobalSecondaryIndexArgs := {
  gsi_name : string;
  gsi_hash_key : string;
  gsi_projection_type : string
}.

Record TableServerSideEncryptionArgs := {
  sse_enabled : bool;
  sse_kms_key_arn : string
}.

Record TablePointInTimeRecoveryArgs := {
  pitr_enabled : bool
}.

(** [aws.dynamodb.Table]: [arn] is assigned by the provider. *)
Record Table := {
  table_resource_name : string;
  name : string;
  billing_mode : string;
  hash_key : string;
  attributes : list TableAttributeArgs;
  global_secondary_indexes : list TableGlobalSecondaryIndexArgs;
  server_side_encryption : TableServerSideEncryptionArgs;
  point_in_time_recovery : TablePointInTimeRecoveryArgs;
  tags : gmap string string;
  arn : string
}.

End dynamodb.

Module iam.

Record GetPolicyDocumentStatementConditionArgs := {
  test : string;
  variable : string;
  values : list string
}.

(** [conditions] is an optional argument: [None] when it is not passed. *)
Record GetPolicyDocumentStatementArgs := {
  effect : string;
  actions : list string;
  resources : list string;
  conditions : option (list GetPolicyDocumentStatementConditionArgs)
}.

(** Result of the [aws.iam.get_policy_document] invoke. *)
Record GetPolicyDocumentResult := {
  statements : list GetPolicyDocumentStatementArgs;
  json : string
}.

(** [aws.iam.Policy]: [arn] is assigned by the provider. *)
Record Policy := {
  policy_resource_name : string;
  name : string;
  description : string;
  policy : string;
  tags : gmap string string;
  arn : string
}.

End iam.

(** ** The provider *)

(** What the program cannot know by itself.  [computed r a] is the value the
    provider assigns to attribute [a] of the resource with logical name [r];
    [region_name] is [aws.get_region().name]; [render_json] is the JSON text
    the policy-document invoke returns for a list of statements. *)
Record Provider := {
  region_name : string;
  computed : string → string → string;
  render_json : list iam.GetPolicyDocumentStatementArgs → string
}.

(** ** The Pulumi engine: stack state and the build monad *)

Inductive Resource :=
| KmsKey (k : kms.Key)
| KmsAlias (a : kms.Alias)
| DynamoTable (t : dynamodb.Table)
| IamPolicy (p : iam.Policy).

(** A stack output is a string or a dict of strings. *)
Inductive Exported :=
| ExportStr (s : string)
| ExportDict (d : gmap string string).

Record Stack := {
  declared : list Resource;
  outputs : gmap string Exported
}.

Definition empty_stack : Stack := {| declared := []; outputs := ∅ |}.

(** The error taxonomy of the specification. *)
Inductive Error := ConfigError | DependencyOrderError.

Inductive Outcome (A : Type) :=
| Done (a : A)
| Raised (e : Error).
Arguments Done {A} a.
Arguments Raised {A} e.

Definition Build (A : Type) : Type := Stack → Outcome (A * Stack).

Global Instance Build_ret : MRet Build := λ A a st, Done (a, st).

Global Instance Build_bind : MBind Build := λ A B f m st,
  match m st with
  | Done (a, st') => f a st'
  | Raised e => Raised e
  end.

(** Resource registration: the declaration is appended to the stack. *)
Definition register (r : Resource) : Build unit := λ st,
  Done (tt, {| declared := declared st ++ [r]; outputs := outputs st |}).

Module pulumi.

(** [pulumi.Config.get(key, default)] *)
Definition get (config : gmap string string) (key dflt : string) : string :=
  match config !! key with
  | Some v => v
  | None => dflt
  end.

(** [pulumi.export(name, value)] *)
Definition export (name : string) (value : Exported) : Build unit := λ st,
  Done (tt, {| declared := declared st;
               outputs := <[name := value]> (outputs st) |}).

End pulumi.

Module aws.

(** [aws.get_region().name] *)
Definition get_region (p : Provider) : string := region_name p.

Definition Key (p : Provider) (resource_name description : string)
    (deletion_window_in_days : Z) (tags : gmap string string)
    : Build kms.Key :=
  let k := {| kms.key_resource_name := resource_name;
              kms.description := description;
              kms.deletion_window_in_days := deletion_window_in_days;
              kms.tags := tags;
              kms.key_id := computed p resource_name "key_id";
              kms.arn := computed p resource_name "arn" |} in
  register (KmsKey k);; mret k.

Definition Alias (resource_name name target_key_id : string)
    : Build kms.Alias :=
  let a := {| kms.alias_resource_name := resource_name;
              kms.name := name;
              kms.target_key_id := target_key_id |} in
  register (KmsAlias a);; mret a.

Definition Table (p : Provider) (resource_name name billing_mode hash_key : string)
    (attributes : list dynamodb.TableAttributeArgs)
    (global_secondary_indexes : list dynamodb.TableGlobalSecondaryIndexArgs)
    (server_side_encryption : dynamodb.TableServerSideEncryptionArgs)
    (point_in_time_recovery : dynamodb.TablePointInTimeRecoveryArgs)
    (tags : gmap string string) : Build dynamodb.Table :=
  let t := {| dynamodb.table_resource_name := resource_name;
              dynamodb.name := name;
              dynamodb.billing_mode := billing_mode;
              dynamodb.hash_key := hash_key;
              dynamodb.attributes := attributes;
              dynamodb.global_secondary_indexes := global_secondary_indexes;
              dynamodb.server_side_encryption := server_side_encryption;
              dynamodb.point_in_time_recovery := point_in_time_recovery;
              dynamodb.tags := tags;
              dynamodb.arn := computed p resource_name "arn" |} in
  register (DynamoTable t);; mret t.

(** The policy document is an invoke, not a resource: nothing is declared. *)
Definition get_policy_document (p : Provider)
    (statements : list iam.GetPolicyDocumentStatementArgs)
    : iam.GetPolicyDocumentResult :=
  {| iam.statements := statements; iam.json := render_json p statements |}.

Definition Policy (p : Provider) (resource_name name description policy : string)
    (tags : gmap string string) : Build iam.Policy :=
  let pol := {| iam.policy_resource_name := resource_name;
                iam.name := name;
                iam.description := description;
                iam.policy := policy;
                iam.tags := tags;
                iam.arn := computed p resource_name "arn" |} in
  register (IamPolicy pol);; mret pol.

End aws.

(** ** The program *)

Section Program.

Variable provider : Provider.
Variable config : gmap string string.

Definition environment : string := pulumi.get config "environment" "dev".

Definition table_name : string :=
  pulumi.get config "table_name" ("certificate-monkey-" +:+ environment).

Definition kms_key : Build kms.Key :=
  aws.Key provider "certificate-monkey-kms-key"
    "Certificate Monkey private key encryption"
    7
    (<["Name" := "certificate-monkey-" +:+ environment]>
     (<["Environment" := environment]>
      (<["Application" := "certificate-monkey"]>
       (<["Purpose" := "private-key-encryption"]> ∅)))).

Definition kms_alias (kms_key : kms.Key) : Build kms.Alias :=
  aws.Alias "certificate-monkey-kms-alias"
    ("alias/certificate-monkey-" +:+ environment)
    (kms.key_id kms_key).

Definition dynamodb_table (kms_key : kms.Key) : Build dynamodb.Table :=
  aws.Table provider "certificate-monkey-table"
    table_name
    "PAY_PER_REQUEST"
    "id"
    [ {| dynamodb.attr_name := "id"; dynamodb.attr_type := "S" |};
      {| dynamodb.attr_name := "created_at"; dynamodb.attr_type := "S" |} ]
    [ {| dynamodb.gsi_name := "created_at-index";
         dynamodb.gsi_hash_key := "created_at";
         dynamodb.gsi_projection_type := "ALL" |} ]
    {| dynamodb.sse_enabled := true;
       dynamodb.sse_kms_key_arn := kms.arn kms_key |}
    {| dynamodb.pitr_enabled := true |}
    (<["Name" := table_name]>
     (<["Environment" := environment]>
      (<["Application" := "certificate-monkey"]>
       (<["Purpose" := "certificate-storage"]> ∅)))).

Definition app_policy_document (dynamodb_table : dynamodb.Table)
    (kms_key : kms.Key) : iam.GetPolicyDocumentResult :=
  aws.get_policy_document provider
    [ {| iam.effect := "Allow";
         iam.actions := [ "dynamodb:PutItem";
                          "dynamodb:GetItem";
                          "dynamodb:UpdateItem";
                          "dynamodb:DeleteItem";
                          "dynamodb:Scan" ];
         iam.resources := [ dynamodb.arn dynamodb_table;
                            dynamodb.arn dynamodb_table +:+ "/index/*" ];
         iam.conditions := None |};
      {| iam.effect := "Allow";
         iam.actions := [ "kms:Encrypt"; "kms:Decrypt" ];
         iam.resources := [ kms.arn kms_key ];
         iam.conditions := Some
           [ {| iam.test := "StringEquals";
                iam.variable := "kms:ViaService";
                iam.values := [ "dynamodb." +:+ aws.get_region provider
                                            +:+ ".amazonaws.com" ] |} ] |} ].

Definition app_policy (app_policy_document : iam.GetPolicyDocumentResult)
    : Build iam.Policy :=
  aws.Policy provider "certificate-monkey-app-policy"
    ("certificate-monkey-" +:+ environment +:+ "-policy")
    "IAM policy for Certificate Monkey application"
    (iam.json app_policy_document)
    (<["Name" := "certificate-monkey-" +:+ environment +:+ "-policy"]>
     (<["Environment" := environment]>
      (<["Application" := "certificate-monkey"]> ∅))).

(** The module-level names once the program has run. *)
Record Globals := {
  g_kms_key : kms.Key;
  g_kms_alias : kms.Alias;
  g_dynamodb_table : dynamodb.Table;
  g_app_policy_document : iam.GetPolicyDocumentResult;
  g_app_policy : iam.Policy
}.

Definition exports (g : Globals) : Build unit :=
  pulumi.export "dynamodb_table_name"
    (ExportStr (dynamodb.name (g_dynamodb_table g)));;
  pulumi.export "dynamodb_table_arn"
    (ExportStr (dynamodb.arn (g_dynamodb_table g)));;
  pulumi.export "kms_key_id" (ExportStr (kms.key_id (g_kms_key g)));;
  pulumi.export "kms_key_arn" (ExportStr (kms.arn (g_kms_key g)));;
  pulumi.export "kms_alias_name" (ExportStr (kms.name (g_kms_alias g)));;
  pulumi.export "iam_policy_arn" (ExportStr (iam.arn (g_app_policy g)));;
  pulumi.export "environment_variables"
    (ExportDict
       (<["DYNAMODB_TABLE" := dynamodb.name (g_dynamodb_table g)]>
        (<["KMS_KEY_ID" := kms.name (g_kms_alias g)]>
         (<["AWS_REGION" := aws.get_region provider]> ∅)))).

Definition main : Build Globals :=
  key ← kms_key;
  alias ← kms_alias key;
  table ← dynamodb_table key;
  let document := app_policy_document table key in
  policy ← app_policy document;
  let g := {| g_kms_key := key;
              g_kms_alias := alias;
              g_dynamodb_table := table;
              g_app_policy_document := document;
              g_app_policy := policy |} in
  exports g;;
  mret g.

(** One deployment run: the program on a fresh stack. *)
Definition run : Outcome (Globals * Stack) := main empty_stack.

End Program.

(** ** Sample inputs *)

(** A provider that names every computed attribute after its resource. *)
Definition sample_provider (region : string) : Provider :=
  {| region_name := region;
     computed := λ r a, "<" +:+ r +:+ "." +:+ a +:+ ">";
     render_json := λ ss, "<policy-json>" |}.

Definition staging_config : gmap string string :=
  <["environment" := "staging"]> ∅.

Definition override_config : gmap string string :=
  <["table_name" := "certs"]> (<["environment" := "prod"]> ∅).

Definition empty_environment_config : gmap string string :=
  <["environment" := ""]> ∅.

(** A configuration that sets neither value the program reads. *)
Definition unrelated_config : gmap string string :=
  <["owner" := "pki-team"]> ∅.

Definition production_config : gmap string string :=
  <["environment" := "prod"]> ∅.

(** ** Observations on declared resources *)

(** The logical name a resource was declared under (the first argument of its
    constructor). *)
Definition logical_name (r : Resource) : string :=
  match r with
  | KmsKey k => kms.key_resource_name k
  | KmsAlias a => kms.alias_resource_name a
  | DynamoTable t => dynamodb.table_resource_name t
  | IamPolicy p => iam.policy_resource_name p
  end.


(** Every value of every condition of a policy document, in order. *)
Definition condition_values (d : iam.GetPolicyDocumentResult) : list string :=
  s ← iam.statements d;
  c ← default [] (iam.conditions s);
  iam.values c.

(** ** Running the program symbolically *)

Ltac unfold_build :=
  cbv [run main exports kms_key kms_alias dynamodb_table app_policy
       aws.Key aws.Alias aws.Table aws.Policy register pulumi.export
       mbind mret Build_bind Build_ret empty_stack declared outputs].

Ltac fields :=
  cbn [g_kms_key g_kms_alias g_dynamodb_table g_app_policy_document
       g_app_policy declared outputs app (* list append *)
       kms.key_resource_name kms.description kms.deletion_window_in_days
       kms.tags kms.key_id kms.arn
       kms.alias_resource_name kms.name kms.target_key_id
       dynamodb.table_resource_name dynamodb.name dynamodb.billing_mode
       dynamodb.hash_key dynamodb.attributes
       dynamodb.global_secondary_indexes dynamodb.server_side_encryption
       dynamodb.point_in_time_recovery dynamodb.tags dynamodb.arn
       dynamodb.attr_name dynamodb.attr_type dynamodb.gsi_name
       dynamodb.gsi_hash_key dynamodb.gsi_projection_type
       dynamodb.sse_enabled dynamodb.sse_kms_key_arn dynamodb.pitr_enabled
       iam.statements iam.json iam.effect iam.actions iam.resources
       iam.conditions iam.test iam.variable iam.values
       iam.policy_resource_name iam.name iam.description iam.policy
       iam.tags iam.arn
       app_policy_document aws.get_policy_document aws.get_region].

(** Reduces a goal [∃ g st, run p cfg = Done (g, st) ∧ Q g st] to [Q] at the
    globals and stack the program ends with. *)
Ltac run_program :=
  eexists _, _; split; [unfold_build; reflexivity | fields].

(** The configuration is read through [pulumi.get] only. *)
Lemma get_lookup (config : gmap string string) key dflt :
  pulumi.get config key dflt = default dflt (config !! key).
Proof. unfold pulumi.get. by destruct (config !! key). Qed.

(** The program never raises: every bind continues with [Done]. *)
Lemma run_total p cfg : ∃ g st, run p cfg = Done (g, st).
Proof. eexists _, _. unfold_build. reflexivity. Qed.

(** The four resources are declared in source order. *)
Lemma run_declared p cfg :
  ∃ g st, run p cfg = Done (g, st) ∧
    declared st = [ KmsKey (g_kms_key g); KmsAlias (g_kms_alias g);
                    DynamoTable (g_dynamodb_table g);
                    IamPolicy (g_app_policy g) ] ∧
    g_app_policy_document g
      = app_policy_document p (g_dynamodb_table g) (g_kms_key g).
Proof. run_program. done. Qed.

(** ** The IAM policy document *)

(** C1: the policy document has exactly two statements.  The first allows
    DynamoDB actions, unconditionally, on the ARN of the table declared in
    this run and on that ARN followed by "/index/*".  The second allows
    exactly kms:Encrypt and kms:Decrypt on the ARN of the key declared in
    this run, under the single condition StringEquals on kms:ViaService with
    the one value "dynamodb.<region>.amazonaws.com", whatever the region. *)
Theorem policy_document_two_statements p cfg :
  ∃ g st, run p cfg = Done (g, st) ∧
    let table_arn := dynamodb.arn (g_dynamodb_table g) in
    let key_arn := kms.arn (g_kms_key g) in
    ∃ table_stmt kms_stmt,
      iam.statements (g_app_policy_document g) = [table_stmt; kms_stmt] ∧
      iam.effect table_stmt = "Allow" ∧
      iam.actions table_stmt ≠ [] ∧
      Forall (λ a, String.prefix "dynamodb:" a = true) (iam.actions table_stmt) ∧
      iam.resources table_stmt = [table_arn; table_arn +:+ "/index/*"] ∧
      iam.conditions table_stmt = None ∧
      iam.effect kms_stmt = "Allow" ∧
      iam.actions kms_stmt = ["kms:Encrypt"; "kms:Decrypt"] ∧
      iam.resources kms_stmt = [key_arn] ∧
      iam.conditions kms_stmt = Some
        [ {| iam.test := "StringEquals";
             iam.variable := "kms:ViaService";
             iam.values := ["dynamodb." +:+ region_name p +:+ ".amazonaws.com"] |} ] ∧
      DynamoTable (g_dynamodb_table g) ∈ declared st ∧
      KmsKey (g_kms_key g) ∈ declared st ∧
      iam.policy (g_app_policy g) = iam.json (g_app_policy_document g).
Proof.
  run_program. eexists _, _. split; [reflexivity | fields].
  repeat split; try done; repeat constructor.
Qed.

(** The region of the specification's example. *)
Example policy_document_us_east_1 cfg :
  ∃ g st, run (sample_provider "us-east-1") cfg = Done (g, st) ∧
    ∃ table_stmt c, iam.statements (g_app_policy_document g)
                    = [table_stmt;
                       {| iam.effect := "Allow";
                          iam.actions := ["kms:Encrypt"; "kms:Decrypt"];
                          iam.resources := [kms.arn (g_kms_key g)];
                          iam.conditions := Some [c] |}] ∧
      iam.variable c = "kms:ViaService" ∧
      iam.values c = ["dynamodb.us-east-1.amazonaws.com"].
Proof. run_program. eexists _, _. by split. Qed.

(** C10: the table statement grants exactly PutItem, GetItem, UpdateItem,
    DeleteItem and Scan.  dynamodb:Query is granted by no statement of the
    document, although the table statement's resources include the index
    wildcard. *)
Theorem policy_document_table_actions p cfg :
  ∃ g st, run p cfg = Done (g, st) ∧
    ∃ table_stmt rest,
      iam.statements (g_app_policy_document g) = table_stmt :: rest ∧
      iam.actions table_stmt = [ "dynamodb:PutItem"; "dynamodb:GetItem";
                                 "dynamodb:UpdateItem"; "dynamodb:DeleteItem";
                                 "dynamodb:Scan" ] ∧
      (dynamodb.arn (g_dynamodb_table g) +:+ "/index/*")
        ∈ iam.resources table_stmt ∧
      Forall (λ s, "dynamodb:Query" ∉ iam.actions s)
             (iam.statements (g_app_policy_document g)).
Proof.
  run_program. eexists _, _. split; [reflexivity | fields].
  split; [done |]. split; [repeat constructor |].
  repeat constructor; fields; rewrite !not_elem_of_cons;
    repeat split; (discriminate || apply not_elem_of_nil).
Qed.

(** ** The DynamoDB table *)

(** C3: whatever the configuration, the declared table has server-side
    encryption enabled, keyed by the ARN of the key declared in the same
    run, and point-in-time recovery enabled. *)
Theorem table_encryption_and_recovery_enabled p cfg :
  ∃ g st, run p cfg = Done (g, st) ∧
    let table := g_dynamodb_table g in
    DynamoTable table ∈ declared st ∧
    dynamodb.sse_enabled (dynamodb.server_side_encryption table) = true ∧
    dynamodb.sse_kms_key_arn (dynamodb.server_side_encryption table)
      = kms.arn (g_kms_key g) ∧
    dynamodb.pitr_enabled (dynamodb.point_in_time_recovery table) = true ∧
    ∀ t, DynamoTable t ∈ declared st →
      dynamodb.sse_enabled (dynamodb.server_side_encryption t) = true ∧
      dynamodb.pitr_enabled (dynamodb.point_in_time_recovery t) = true.
Proof.
  run_program. split; [repeat constructor |]. do 3 (split; [done |]).
  intros t Ht. rewrite !elem_of_cons, elem_of_nil in Ht.
  destruct Ht as [Ht | [Ht | [Ht | [Ht | []]]]]; try discriminate Ht.
  by injection Ht as ->.
Qed.

(** C4: the declared table name is the configured table_name when there is
    one, and "certificate-monkey-<environment>" when there is none. *)
Theorem table_name_override_or_default p cfg :
  ∃ g st, run p cfg = Done (g, st) ∧
    (∀ override, cfg !! "table_name" = Some override →
       dynamodb.name (g_dynamodb_table g) = override) ∧
    (cfg !! "table_name" = None →
       dynamodb.name (g_dynamodb_table g)
         = "certificate-monkey-" +:+ environment cfg).
Proof.
  run_program. unfold table_name. rewrite get_lookup.
  split; [intros override H | intros H]; by rewrite H.
Qed.

Lemma table_name_override_or_default_witness :
  (∃ g st, run (sample_provider "eu-west-1") staging_config = Done (g, st) ∧
     dynamodb.name (g_dynamodb_table g) = "certificate-monkey-staging") ∧
  (∃ g st, run (sample_provider "eu-west-1") override_config = Done (g, st) ∧
     dynamodb.name (g_dynamodb_table g) = "certs").
Proof.
  split.
  - destruct (table_name_override_or_default
                (sample_provider "eu-west-1") staging_config)
      as (g & st & Hrun & _ & Hdefault).
    exists g, st. split; [exact Hrun |]. apply Hdefault. reflexivity.
  - destruct (table_name_override_or_default
                (sample_provider "eu-west-1") override_config)
      as (g & st & Hrun & Hoverride & _).
    exists g, st. split; [exact Hrun |]. apply Hoverride. reflexivity.
Defined.

(** C5: the declared attributes include "id" and "created_at", so they cover
    the table's hash key and the hash key of every global secondary index;
    there is exactly one such index, hashed on "created_at" and projecting
    ALL. *)
Theorem table_attributes_cover_keys p cfg :
  ∃ g st, run p cfg = Done (g, st) ∧
    let table := g_dynamodb_table g in
    let declared_names := dynamodb.attr_name <$> dynamodb.attributes table in
    "id" ∈ declared_names ∧
    "created_at" ∈ declared_names ∧
    dynamodb.hash_key table ∈ declared_names ∧
    Forall (λ i, dynamodb.gsi_hash_key i ∈ declared_names)
           (dynamodb.global_secondary_indexes table) ∧
    ∃ index, dynamodb.global_secondary_indexes table = [index] ∧
      dynamodb.gsi_hash_key index = "created_at" ∧
      dynamodb.gsi_projection_type index = "ALL".
Proof.
  run_program. cbn [fmap list_fmap]. fields.
  repeat split; try (repeat constructor).
  eexists. by split.
Qed.

(** ** The KMS key and its alias *)

(** C7: the alias is named "alias/certificate-monkey-<environment>", which
    starts with the reserved prefix "alias/", and targets the identifier of
    the key declared, before it, in the same run. *)
Theorem alias_names_key_of_same_build p cfg :
  ∃ g st, run p cfg = Done (g, st) ∧
    kms.name (g_kms_alias g) = "alias/certificate-monkey-" +:+ environment cfg ∧
    String.prefix "alias/" (kms.name (g_kms_alias g)) = true ∧
    kms.target_key_id (g_kms_alias g) = kms.key_id (g_kms_key g) ∧
    ∃ later, declared st
             = KmsKey (g_kms_key g) :: KmsAlias (g_kms_alias g) :: later.
Proof.
  run_program. do 3 (split; [done |]). eexists. reflexivity.
Qed.

(** C6, as the program behaves: with the environment set to the empty string
    the key is declared, tagged "certificate-monkey-", and nothing is
    raised. *)
Lemma kms_key_empty_environment_is_declared :
  environment empty_environment_config = "" ∧
  (∃ k st,
     kms_key (sample_provider "eu-west-1") empty_environment_config empty_stack
       = Done (k, st) ∧
     declared st = [KmsKey k] ∧
     kms.tags k !! "Name" = Some "certificate-monkey-") ∧
  kms_key (sample_provider "eu-west-1") empty_environment_config empty_stack
    ≠ Raised ConfigError.
Proof.
  split; [reflexivity |]. split; [| discriminate].
  eexists _, _. split; [reflexivity |]. by split.
Qed.

(** C6, amended: declaring the key has no failure mode.  From any stack and
    for any configuration the key is declared and appended to the stack, with
    the environment taken from the configuration as it is ("dev" when
    absent, the empty string included); the whole run raises nothing. *)
Theorem kms_key_never_fails p cfg st :
  (∃ k, kms_key p cfg st
          = Done (k, {| declared := declared st ++ [KmsKey k];
                        outputs := outputs st |}) ∧
        kms.tags k !! "Environment" = Some (environment cfg) ∧
        kms.tags k !! "Name" = Some ("certificate-monkey-" +:+ environment cfg)) ∧
  environment cfg = default "dev" (cfg !! "environment") ∧
  ∀ e, run p cfg ≠ Raised e.
Proof.
  split; [| split].
  - eexists. split; [reflexivity |]. fields. by simplify_map_eq.
  - apply get_lookup.
  - intros e. destruct (run_total p cfg) as (g & st' & ->). discriminate.
Qed.

(** ** Stack outputs *)

(** C8: the run exports exactly seven outputs.  Six are strings bound to the
    table name and ARN, the key identifier and ARN, the alias name and the
    policy ARN; environment_variables is a dict with exactly the keys
    DYNAMODB_TABLE, KMS_KEY_ID and AWS_REGION, bound to the table name, the
    alias name and the provider's region. *)
Theorem exported_outputs p cfg :
  ∃ g st, run p cfg = Done (g, st) ∧
    dom (outputs st)
      = {[ "dynamodb_table_name"; "dynamodb_table_arn"; "kms_key_id";
           "kms_key_arn"; "kms_alias_name"; "iam_policy_arn";
           "environment_variables" ]} ∧
    outputs st !! "dynamodb_table_name"
      = Some (ExportStr (dynamodb.name (g_dynamodb_table g))) ∧
    outputs st !! "dynamodb_table_arn"
      = Some (ExportStr (dynamodb.arn (g_dynamodb_table g))) ∧
    outputs st !! "kms_key_id" = Some (ExportStr (kms.key_id (g_kms_key g))) ∧
    outputs st !! "kms_key_arn" = Some (ExportStr (kms.arn (g_kms_key g))) ∧
    outputs st !! "kms_alias_name"
      = Some (ExportStr (kms.name (g_kms_alias g))) ∧
    outputs st !! "iam_policy_arn"
      = Some (ExportStr (iam.arn (g_app_policy g))) ∧
    ∃ env_vars,
      outputs st !! "environment_variables" = Some (ExportDict env_vars) ∧
      dom env_vars = {[ "DYNAMODB_TABLE"; "KMS_KEY_ID"; "AWS_REGION" ]} ∧
      env_vars !! "DYNAMODB_TABLE" = Some (dynamodb.name (g_dynamodb_table g)) ∧
      env_vars !! "KMS_KEY_ID" = Some (kms.name (g_kms_alias g)) ∧
      env_vars !! "AWS_REGION" = Some (region_name p).
Proof.
  run_program. split.
  { rewrite !dom_insert_L, dom_empty_L. set_solver. }
  do 6 (split; [by simplify_map_eq |]).
  eexists. split; [by simplify_map_eq |]. split.
  { rewrite !dom_insert_L, dom_empty_L. set_solver. }
  by simplify_map_eq.
Qed.

(** C2: the KMS_KEY_ID entry of environment_variables is the alias name
    "alias/certificate-monkey-<environment>", the same string as the
    kms_alias_name output.  It differs from the kms_key_id output whenever
    the identifier the provider assigned to the key does not itself start
    with the prefix "alias/", which is reserved for aliases. *)
Theorem environment_variables_kms_key_id_is_alias p cfg :
  ∃ g st env_vars, run p cfg = Done (g, st) ∧
    outputs st !! "environment_variables" = Some (ExportDict env_vars) ∧
    env_vars !! "KMS_KEY_ID"
      = Some ("alias/certificate-monkey-" +:+ environment cfg) ∧
    outputs st !! "kms_alias_name"
      = Some (ExportStr ("alias/certificate-monkey-" +:+ environment cfg)) ∧
    outputs st !! "kms_key_id" = Some (ExportStr (kms.key_id (g_kms_key g))) ∧
    (String.prefix "alias/" (kms.key_id (g_kms_key g)) = false →
     env_vars !! "KMS_KEY_ID" ≠ Some (kms.key_id (g_kms_key g))).
Proof.
  eexists _, _, _. split; [unfold_build; reflexivity | fields].
  do 4 (split; [by simplify_map_eq |]).
  intros Hid. simplify_map_eq. intros [= Heq].
  rewrite <- Heq in Hid. discriminate Hid.
Qed.

Lemma environment_variables_kms_key_id_is_alias_witness :
  ∃ g st env_vars,
    run (sample_provider "eu-west-1") staging_config = Done (g, st) ∧
    outputs st !! "environment_variables" = Some (ExportDict env_vars) ∧
    outputs st !! "kms_key_id" = Some (ExportStr (kms.key_id (g_kms_key g))) ∧
    kms.key_id (g_kms_key g) = "<certificate-monkey-kms-key.key_id>" ∧
    env_vars !! "KMS_KEY_ID" = Some "alias/certificate-monkey-staging" ∧
    env_vars !! "KMS_KEY_ID" ≠ Some (kms.key_id (g_kms_key g)).
Proof.
  destruct (environment_variables_kms_key_id_is_alias
              (sample_provider "eu-west-1") staging_config)
    as (g & st & env_vars & Hrun & Henv & Hid & _ & Hkey & Hne).
  exists g, st, env_vars.
  assert (Hg : kms.key_id (g_kms_key g) = "<certificate-monkey-kms-key.key_id>").
  { vm_compute in Hrun. by injection Hrun as <- _. }
  repeat split; try done.
  apply Hne. rewrite Hg. reflexivity.
Defined.

(** ** Determinism *)

(** C9: a run is a function of the environment and table_name configuration
    values, the region, and what the provider returned for the earlier steps.
    Two runs that agree on these (whatever else the configurations hold)
    succeed with the same resource descriptions, the same policy document
    and the same stack outputs. *)
Theorem build_deterministic p1 p2 (cfg1 cfg2 : gmap string string) :
  cfg1 !! "environment" = cfg2 !! "environment" →
  cfg1 !! "table_name" = cfg2 !! "table_name" →
  region_name p1 = region_name p2 →
  (∀ r a, computed p1 r a = computed p2 r a) →
  (∀ ss, render_json p1 ss = render_json p2 ss) →
  run p1 cfg1 = run p2 cfg2 ∧ ∃ g st, run p1 cfg1 = Done (g, st).
Proof.
  intros Henv Htable Hregion Hcomputed Hjson.
  split; [| apply run_total].
  assert (He : environment cfg1 = environment cfg2).
  { unfold environment. by rewrite !get_lookup, Henv. }
  assert (Ht : table_name cfg1 = table_name cfg2).
  { unfold table_name. by rewrite !get_lookup, Htable, He. }
  unfold_build. unfold app_policy_document, aws.get_policy_document,
    aws.get_region. fields.
  by rewrite He, Ht, Hregion, !Hcomputed, Hjson.
Qed.

Lemma build_deterministic_witness :
  staging_config ≠ <["owner" := "pki-team"]> staging_config ∧
  run (sample_provider "eu-west-1") staging_config
    = run (sample_provider "eu-west-1")
          (<["owner" := "pki-team"]> staging_config).
Proof.
  split; [by vm_compute |].
  apply (build_deterministic
           (sample_provider "eu-west-1") (sample_provider "eu-west-1")
           staging_config (<["owner" := "pki-team"]> staging_config)).
  - reflexivity.
  - reflexivity.
  - reflexivity.
  - intros r a. reflexivity.
  - intros ss. reflexivity.
Defined.

(** ** End-to-end scenario of the specification *)

Example staging_in_eu_west_1 :
  ∃ g st env_vars,
    run (sample_provider "eu-west-1") staging_config = Done (g, st) ∧
    dynamodb.name (g_dynamodb_table g) = "certificate-monkey-staging" ∧
    kms.name (g_kms_alias g) = "alias/certificate-monkey-staging" ∧
    (∃ s c, iam.statements (g_app_policy_document g) !! 1 = Some s ∧
            iam.conditions s = Some [c] ∧
            iam.values c = ["dynamodb.eu-west-1.amazonaws.com"]) ∧
    outputs st !! "environment_variables" = Some (ExportDict env_vars) ∧
    env_vars = <["DYNAMODB_TABLE" := "certificate-monkey-staging"]>
               (<["KMS_KEY_ID" := "alias/certificate-monkey-staging"]>
                (<["AWS_REGION" := "eu-west-1"]> ∅)).
Proof.
  eexists _, _, _. split; [unfold_build; reflexivity | fields].
  do 2 (split; [reflexivity |]). split.
  { eexists _, _. by split. }
  split; [by simplify_map_eq | reflexivity].
Qed.

(** ** Further properties of the program *)

(** *** Strings *)

Lemma string_app_cons c s t : String c s +:+ t = String c (s +:+ t).
Proof. reflexivity. Qed.

Lemma string_app_nil t : "" +:+ t = t.
Proof. reflexivity. Qed.

Lemma string_app_length s t :
  String.length (s +:+ t) = String.length s + String.length t.
Proof.
  induction s as [| c s IH]; [done |].
  rewrite string_app_cons. cbn. by rewrite IH.
Qed.

(** A common suffix can be cancelled. *)
Lemma string_app_inj_r t s1 s2 : s1 +:+ t = s2 +:+ t → s1 = s2.
Proof.
  revert s2. induction s1 as [| c s1 IH]; intros [| c' s2] H;
    rewrite ?string_app_cons, ?string_app_nil in H.
  - done.
  - apply (f_equal String.length) in H. cbn in H.
    rewrite string_app_length in H. lia.
  - apply (f_equal String.length) in H. cbn in H.
    rewrite string_app_length in H. lia.
  - injection H as -> H. f_equal. by apply IH.
Qed.

(** *** Configuration defaults *)

(** X1: when the configuration has no environment value (whatever else it
    holds), the environment is "dev": the alias is
    "alias/certificate-monkey-dev", the policy "certificate-monkey-dev-policy"
    and, without a table_name override, the table "certificate-monkey-dev". *)
Theorem missing_environment_defaults_to_dev p (cfg : gmap string string) :
  cfg !! "environment" = None →
  ∃ g st, run p cfg = Done (g, st) ∧
    kms.name (g_kms_alias g) = "alias/certificate-monkey-dev" ∧
    iam.name (g_app_policy g) = "certificate-monkey-dev-policy" ∧
    kms.tags (g_kms_key g) !! "Environment" = Some "dev" ∧
    (cfg !! "table_name" = None →
     dynamodb.name (g_dynamodb_table g) = "certificate-monkey-dev").
Proof.
  intros Henv. run_program.
  assert (He : environment cfg = "dev").
  { unfold environment. by rewrite get_lookup, Henv. }
  unfold table_name. rewrite get_lookup, He.
  do 2 (split; [done |]). split; [by simplify_map_eq |].
  by intros ->.
Qed.

Lemma missing_environment_defaults_to_dev_witness :
  ∃ g st, run (sample_provider "eu-west-1") unrelated_config = Done (g, st) ∧
    kms.name (g_kms_alias g) = "alias/certificate-monkey-dev" ∧
    dynamodb.name (g_dynamodb_table g) = "certificate-monkey-dev".
Proof.
  destruct (missing_environment_defaults_to_dev
              (sample_provider "eu-west-1") unrelated_config)
    as (g & st & Hrun & Halias & _ & _ & Htable); [reflexivity |].
  exists g, st. split; [exact Hrun |]. split; [exact Halias |].
  apply Htable. reflexivity.
Defined.

(** *** Tags and names *)

(** X2: the key, the table and the policy are tagged with the same
    environment, the one read from the configuration, and the same
    application "certificate-monkey".  The key and the table carry exactly
    the tags Name, Environment, Application and Purpose; the policy carries
    no Purpose tag. *)
Theorem tags_agree_on_environment p cfg :
  ∃ g st, run p cfg = Done (g, st) ∧
    let key_tags := kms.tags (g_kms_key g) in
    let table_tags := dynamodb.tags (g_dynamodb_table g) in
    let policy_tags := iam.tags (g_app_policy g) in
    key_tags !! "Environment" = Some (environment cfg) ∧
    table_tags !! "Environment" = key_tags !! "Environment" ∧
    policy_tags !! "Environment" = key_tags !! "Environment" ∧
    key_tags !! "Application" = Some "certificate-monkey" ∧
    table_tags !! "Application" = key_tags !! "Application" ∧
    policy_tags !! "Application" = key_tags !! "Application" ∧
    dom key_tags = {[ "Name"; "Environment"; "Application"; "Purpose" ]} ∧
    dom table_tags = dom key_tags ∧
    dom policy_tags = {[ "Name"; "Environment"; "Application" ]} ∧
    key_tags !! "Purpose" ≠ table_tags !! "Purpose".
Proof.
  run_program.
  do 6 (split; [by simplify_map_eq |]).
  rewrite !dom_insert_L, !dom_empty_L.
  do 3 (split; [set_solver |]).
  by simplify_map_eq.
Qed.

(** X3: the table's Name tag, the dynamodb_table_name output and the
    DYNAMODB_TABLE environment variable all carry the table's declared name,
    with or without an override; the policy's Name tag is the policy's name.
    The key's Name tag never follows the override: it is
    "certificate-monkey-<environment>". *)
Theorem name_tags_follow_names p cfg :
  ∃ g st env_vars, run p cfg = Done (g, st) ∧
    outputs st !! "environment_variables" = Some (ExportDict env_vars) ∧
    let table := g_dynamodb_table g in
    dynamodb.tags table !! "Name" = Some (dynamodb.name table) ∧
    outputs st !! "dynamodb_table_name" = Some (ExportStr (dynamodb.name table)) ∧
    env_vars !! "DYNAMODB_TABLE" = Some (dynamodb.name table) ∧
    iam.tags (g_app_policy g) !! "Name" = Some (iam.name (g_app_policy g)) ∧
    kms.tags (g_kms_key g) !! "Name"
      = Some ("certificate-monkey-" +:+ environment cfg) ∧
    (∀ override, cfg !! "table_name" = Some override →
       override ≠ "certificate-monkey-" +:+ environment cfg →
       kms.tags (g_kms_key g) !! "Name" ≠ dynamodb.tags table !! "Name").
Proof.
  eexists _, _, _. split; [unfold_build; reflexivity | fields].
  do 6 (split; [by simplify_map_eq |]).
  intros override Hcfg Hne. simplify_map_eq.
  unfold table_name. rewrite get_lookup, Hcfg. cbn. congruence.
Qed.

Lemma name_tags_follow_names_witness :
  ∃ g st, run (sample_provider "eu-west-1") override_config = Done (g, st) ∧
    dynamodb.tags (g_dynamodb_table g) !! "Name" = Some "certs" ∧
    kms.tags (g_kms_key g) !! "Name" ≠ dynamodb.tags (g_dynamodb_table g) !! "Name".
Proof.
  destruct (name_tags_follow_names (sample_provider "eu-west-1") override_config)
    as (g & st & env_vars & Hrun & _ & Htag & _ & _ & _ & _ & Hne).
  exists g, st. split; [exact Hrun |]. split.
  - rewrite Htag. f_equal.
    vm_compute in Hrun. by injection Hrun as <- _.
  - apply (Hne "certs"); [reflexivity | discriminate].
Defined.

(** *** The policy refers to this run's resources only *)

(** X4: every resource string of every statement of the policy document is
    the ARN of the table or of the key declared in this run, or that table's
    ARN followed by "/index/*"; every statement has effect Allow. *)
Theorem policy_document_references_this_build p cfg :
  ∃ g st, run p cfg = Done (g, st) ∧
    DynamoTable (g_dynamodb_table g) ∈ declared st ∧
    KmsKey (g_kms_key g) ∈ declared st ∧
    Forall (λ s,
              iam.effect s = "Allow" ∧
              Forall (λ r, r = dynamodb.arn (g_dynamodb_table g) ∨
                           r = dynamodb.arn (g_dynamodb_table g) +:+ "/index/*" ∨
                           r = kms.arn (g_kms_key g))
                     (iam.resources s))
           (iam.statements (g_app_policy_document g)).
Proof.
  run_program. do 2 (split; [repeat constructor |]).
  apply Forall_cons_2; [| apply Forall_cons_2; [| apply Forall_nil_2]];
    fields; (split; [reflexivity |]).
  - apply Forall_cons_2; [auto |].
    apply Forall_cons_2; [auto |]. apply Forall_nil_2.
  - apply Forall_cons_2; [auto |]. apply Forall_nil_2.
Qed.

(** *** Environments do not share names *)

(** X5: two runs for different environments never produce the same alias
    name, policy name or key Name tag, and, when neither overrides
    table_name, never the same table name. *)
Theorem names_separate_environments p1 p2 cfg1 cfg2 :
  environment cfg1 ≠ environment cfg2 →
  ∃ g1 st1 g2 st2,
    run p1 cfg1 = Done (g1, st1) ∧ run p2 cfg2 = Done (g2, st2) ∧
    kms.name (g_kms_alias g1) ≠ kms.name (g_kms_alias g2) ∧
    iam.name (g_app_policy g1) ≠ iam.name (g_app_policy g2) ∧
    kms.tags (g_kms_key g1) !! "Name" ≠ kms.tags (g_kms_key g2) !! "Name" ∧
    (cfg1 !! "table_name" = None → cfg2 !! "table_name" = None →
     dynamodb.name (g_dynamodb_table g1) ≠ dynamodb.name (g_dynamodb_table g2)).
Proof.
  intros Hne. eexists _, _, _, _.
  split; [unfold_build; reflexivity |].
  split; [unfold_build; reflexivity | fields].
  split; [| split; [| split]].
  - intros H. by apply (inj (String.app _)) in H.
  - intros H. apply (inj (String.app _)) in H.
    by apply string_app_inj_r in H.
  - simplify_map_eq. intros [= H]. by apply (inj (String.app _)) in H.
  - intros H1 H2. unfold table_name. rewrite !get_lookup, H1, H2. cbn.
    intros H. by apply (inj (String.app _)) in H.
Qed.

Lemma names_separate_environments_witness :
  ∃ g1 st1 g2 st2,
    run (sample_provider "eu-west-1") staging_config = Done (g1, st1) ∧
    run (sample_provider "eu-west-1") production_config = Done (g2, st2) ∧
    kms.name (g_kms_alias g1) ≠ kms.name (g_kms_alias g2) ∧
    dynamodb.name (g_dynamodb_table g1) ≠ dynamodb.name (g_dynamodb_table g2).
Proof.
  destruct (names_separate_environments
              (sample_provider "eu-west-1") (sample_provider "eu-west-1")
              staging_config production_config)
    as (g1 & st1 & g2 & st2 & Hrun1 & Hrun2 & Halias & _ & _ & Htable);
    [by vm_compute |].
  exists g1, st1, g2, st2. repeat split; try done.
  apply Htable; reflexivity.
Defined.

(** X6: table_name is used for the table only.  Two runs whose
    configurations agree on the environment declare the same key
    description, deletion window and tags, the same alias name, the same
    policy name, description and tags, and tables that differ at most in
    their name and Name tag, whatever table_name each sets. *)
Theorem table_name_affects_table_only p1 p2 (cfg1 cfg2 : gmap string string) :
  cfg1 !! "environment" = cfg2 !! "environment" →
  ∃ g1 st1 g2 st2,
    run p1 cfg1 = Done (g1, st1) ∧ run p2 cfg2 = Done (g2, st2) ∧
    kms.description (g_kms_key g1) = kms.description (g_kms_key g2) ∧
    kms.deletion_window_in_days (g_kms_key g1)
      = kms.deletion_window_in_days (g_kms_key g2) ∧
    kms.tags (g_kms_key g1) = kms.tags (g_kms_key g2) ∧
    kms.name (g_kms_alias g1) = kms.name (g_kms_alias g2) ∧
    iam.name (g_app_policy g1) = iam.name (g_app_policy g2) ∧
    iam.description (g_app_policy g1) = iam.description (g_app_policy g2) ∧
    iam.tags (g_app_policy g1) = iam.tags (g_app_policy g2) ∧
    delete "Name" (dynamodb.tags (g_dynamodb_table g1))
      = delete "Name" (dynamodb.tags (g_dynamodb_table g2)) ∧
    dynamodb.attributes (g_dynamodb_table g1)
      = dynamodb.attributes (g_dynamodb_table g2) ∧
    dynamodb.global_secondary_indexes (g_dynamodb_table g1)
      = dynamodb.global_secondary_indexes (g_dynamodb_table g2).
Proof.
  intros Henv.
  assert (He : environment cfg1 = environment cfg2).
  { unfold environment. by rewrite !get_lookup, Henv. }
  eexists _, _, _, _.
  split; [unfold_build; reflexivity |].
  split; [unfold_build; reflexivity | fields].
  rewrite He, !delete_insert_eq. done.
Qed.

Lemma table_name_affects_table_only_witness :
  ∃ g1 st1 g2 st2,
    run (sample_provider "eu-west-1") production_config = Done (g1, st1) ∧
    run (sample_provider "eu-west-1") override_config = Done (g2, st2) ∧
    dynamodb.name (g_dynamodb_table g1) ≠ dynamodb.name (g_dynamodb_table g2) ∧
    kms.tags (g_kms_key g1) = kms.tags (g_kms_key g2) ∧
    iam.name (g_app_policy g1) = iam.name (g_app_policy g2).
Proof.
  destruct (table_name_affects_table_only
              (sample_provider "eu-west-1") (sample_provider "eu-west-1")
              production_config override_config)
    as (g1 & st1 & g2 & st2 & Hrun1 & Hrun2 & _ & _ & Htags & _ & Hname & _);
    [reflexivity |].
  exists g1, st1, g2, st2. repeat split; try done.
  vm_compute in Hrun1, Hrun2.
  injection Hrun1 as <- _. injection Hrun2 as <- _. discriminate.
Defined.

(** *** The stack *)

(** X7: the run declares exactly four resources, each once, under four
    pairwise distinct logical names, in the order key, alias, table, policy:
    every resource is declared after the ones whose attributes it reads. *)
Theorem resources_declared_once_in_order p cfg :
  ∃ g st, run p cfg = Done (g, st) ∧
    declared st = [ KmsKey (g_kms_key g); KmsAlias (g_kms_alias g);
                    DynamoTable (g_dynamodb_table g);
                    IamPolicy (g_app_policy g) ] ∧
    logical_name <$> declared st
      = [ "certificate-monkey-kms-key"; "certificate-monkey-kms-alias";
          "certificate-monkey-table"; "certificate-monkey-app-policy" ] ∧
    NoDup (logical_name <$> declared st).
Proof.
  run_program. do 2 (split; [reflexivity |]).
  cbn [fmap list_fmap logical_name]. fields.
  repeat (apply NoDup_cons_2;
          [rewrite ?not_elem_of_cons; repeat split;
           (discriminate || apply not_elem_of_nil) |]).
  apply NoDup_nil_2.
Qed.



(** *** The table's key schema *)

(** X9: the table declares no attribute it does not use: the attribute names
    are pairwise distinct, each is the table's hash key or the hash key of a
    global secondary index, and each has type "S".  The index is hashed on
    another attribute than the table, and billing is PAY_PER_REQUEST. *)
Theorem table_attributes_are_all_keys p cfg :
  ∃ g st, run p cfg = Done (g, st) ∧
    let table := g_dynamodb_table g in
    NoDup (dynamodb.attr_name <$> dynamodb.attributes table) ∧
    Forall (λ a,
              dynamodb.attr_type a = "S" ∧
              (dynamodb.attr_name a = dynamodb.hash_key table ∨
               Exists (λ i, dynamodb.gsi_hash_key i = dynamodb.attr_name a)
                      (dynamodb.global_secondary_indexes table)))
           (dynamodb.attributes table) ∧
    Forall (λ i, dynamodb.gsi_hash_key i ≠ dynamodb.hash_key table)
           (dynamodb.global_secondary_indexes table) ∧
    dynamodb.billing_mode table = "PAY_PER_REQUEST".
Proof.
  run_program. cbn [fmap list_fmap]. fields. split.
  { repeat (apply NoDup_cons_2;
            [rewrite ?not_elem_of_cons; repeat split;
             (discriminate || apply not_elem_of_nil) |]).
    apply NoDup_nil_2. }
  split.
  { apply Forall_cons_2; [| apply Forall_cons_2; [| apply Forall_nil_2]];
      fields; (split; [reflexivity |]).
    - by left.
    - right. by apply Exists_cons_hd. }
  split; [| reflexivity].
  apply Forall_cons_2; [discriminate | apply Forall_nil_2].
Qed.

(** *** The region *)

(** X10: the region the KMS statement is restricted to is the region the
    program exports as AWS_REGION: the only condition value in the whole
    document is "dynamodb.<AWS_REGION>.amazonaws.com". *)
Theorem policy_region_is_exported_region p cfg :
  ∃ g st env_vars region, run p cfg = Done (g, st) ∧
    outputs st !! "environment_variables" = Some (ExportDict env_vars) ∧
    env_vars !! "AWS_REGION" = Some region ∧
    condition_values (g_app_policy_document g)
      = ["dynamodb." +:+ region +:+ ".amazonaws.com"].
Proof.
  eexists _, _, _, _. split; [unfold_build; reflexivity | fields].
  split; [by simplify_map_eq |]. split; [by simplify_map_eq |].
  reflexivity.
Qed.

(** X11: policies built for different regions never share a condition
    value, so a key policy of one region does not admit calls made through
    the DynamoDB service of another. *)
Theorem policy_condition_separates_regions p1 p2 cfg1 cfg2 :
  region_name p1 ≠ region_name p2 →
  ∃ g1 st1 g2 st2,
    run p1 cfg1 = Done (g1, st1) ∧ run p2 cfg2 = Done (g2, st2) ∧
    condition_values (g_app_policy_document g1) ≠ [] ∧
    ∀ v, v ∈ condition_values (g_app_policy_document g1) →
         v ∉ condition_values (g_app_policy_document g2).
Proof.
  intros Hne. eexists _, _, _, _.
  split; [unfold_build; reflexivity |].
  split; [unfold_build; reflexivity | fields].
  change (condition_values (aws.get_policy_document p1 _))
    with ["dynamodb." +:+ region_name p1 +:+ ".amazonaws.com"].
  change (condition_values (aws.get_policy_document p2 _))
    with ["dynamodb." +:+ region_name p2 +:+ ".amazonaws.com"].
  split; [discriminate |].
  intros v Hv1 Hv2. apply list_elem_of_singleton in Hv1, Hv2. subst v.
  apply (inj (String.app _)) in Hv2. by apply string_app_inj_r in Hv2.
Qed.

Lemma policy_condition_separates_regions_witness :
  ∃ g1 st1 g2 st2,
    run (sample_provider "eu-west-1") staging_config = Done (g1, st1) ∧
    run (sample_provider "us-east-1") staging_config = Done (g2, st2) ∧
    "dynamodb.eu-west-1.amazonaws.com"
      ∉ condition_values (g_app_policy_document g2).
Proof.
  destruct (policy_condition_separates_regions
              (sample_provider "eu-west-1") (sample_provider "us-east-1")
              staging_config staging_config)
    as (g1 & st1 & g2 & st2 & Hrun1 & Hrun2 & _ & Hsep); [discriminate |].
  exists g1, st1, g2, st2. do 2 (split; [done |]).
  apply Hsep. vm_compute in Hrun1. injection Hrun1 as <- _.
  apply list_elem_of_singleton. reflexivity.
Defined.
